(** * Wwise_IDs.h: the generated identifier table of the dust-bunny project

    The header [GeneratedSoundBanks/Wwise_IDs.h] declares, inside
    [namespace AK], five nested namespaces; each holds declarations of the
    shape [static const AkUniqueID NAME = <literal>U;].  The development
    below embeds the header as the list of its namespaces, each with the
    list of its declarations in source order, together with qualified name
    lookup ([AK::NS::NAME]) and the effect of the [const] qualifier on
    assignment. *)

From Stdlib Require Import ZArith List String Bool Lia.
Import ListNotations.

Local Open Scope string_scope.
Local Open Scope Z_scope.

(** ** Integer types *)

Module AkTypes.

(** Value of an unsigned integer object of [w] bits initialised from the
    mathematical integer [z]: conversion to an unsigned type is modulo
    [2^w]. *)
Definition wrap (w z : Z) : Z := z mod 2 ^ w.

(** Modelled from the spec: the typedef [AkUniqueID] comes from
    [<AK/SoundEngine/Common/AkTypes.h>], a header of the audio SDK that the
    file includes and that is not part of the sources; the spec describes
    the values as unsigned 32-bit integers. *)
Definition AkUniqueID_bits : Z := 32.

Definition AkUniqueID : Type := Z.

Definition AkUniqueID_max : Z := 2 ^ AkUniqueID_bits - 1.

(** [static const AkUniqueID X = <lit>U;] stores the literal converted to
    the 32-bit unsigned type. *)
Definition AkUniqueID_of_literal (lit : Z) : AkUniqueID :=
  wrap AkUniqueID_bits lit.

End AkTypes.
Import AkTypes.

(** ** Declarations and namespaces *)

(** One declaration [static const AkUniqueID name = initU;], with its
    storage class and cv-qualifier kept as written. *)
Record Declaration : Type := mkDecl {
  decl_static : bool;
  decl_const : bool;
  decl_name : string;
  decl_init : Z
}.

Record Namespace : Type := mkNamespace {
  ns_name : string;
  ns_body : list Declaration
}.

(** The body of [namespace AK { ... }]. *)
Definition Table : Type := list Namespace.

Definition static_const_AkUniqueID (name : string) (lit : Z) : Declaration :=
  {| decl_static := true; decl_const := true;
     decl_name := name; decl_init := lit |}.

(** The value the declared object holds. *)
Definition decl_value (d : Declaration) : AkUniqueID :=
  AkUniqueID_of_literal (decl_init d).

Module AK.

Definition EVENTS : Namespace :=
  {| ns_name := "EVENTS";
     ns_body :=
       [ static_const_AkUniqueID "PLAY_AMB_ROOM2_LP" 2291298689;
         static_const_AkUniqueID "PLAY_AMB_ROOM_LP" 3112684807;
         static_const_AkUniqueID "PLAY_MUS_4_4_100BPM_THEME_NL" 513704729;
         static_const_AkUniqueID "PLAY_SFX_BUNNYABSORB_NL" 1567933058;
         static_const_AkUniqueID "PLAY_SFX_BUNNYIMPACT_NL" 4038925685;
         static_const_AkUniqueID "PLAY_SFX_BUNNYMOVE_NL" 1400485278;
         static_const_AkUniqueID "PLAY_SFX_BUNNYROLL_NL" 4212669292;
         static_const_AkUniqueID "PLAY_SFX_WOODBLOCK_IMPACT_WOOD" 841695155 ] |}.

Definition GAME_PARAMETERS : Namespace :=
  {| ns_name := "GAME_PARAMETERS";
     ns_body := [ static_const_AkUniqueID "VELOCITY" 3519441192 ] |}.

Definition BUSSES : Namespace :=
  {| ns_name := "BUSSES";
     ns_body := [ static_const_AkUniqueID "MAIN_AUDIO_BUS" 2246998526 ] |}.

Definition AUX_BUSSES : Namespace :=
  {| ns_name := "AUX_BUSSES";
     ns_body := [ static_const_AkUniqueID "ROOM" 2077253480 ] |}.

Definition AUDIO_DEVICES : Namespace :=
  {| ns_name := "AUDIO_DEVICES";
     ns_body :=
       [ static_const_AkUniqueID "NO_OUTPUT" 2317455096;
         static_const_AkUniqueID "SYSTEM" 3859886410 ] |}.

(** The namespaces in the order the header opens them. *)
Definition table : Table :=
  [ EVENTS; GAME_PARAMETERS; BUSSES; AUX_BUSSES; AUDIO_DEVICES ].

End AK.

(** ** Qualified name lookup *)

Fixpoint find_declaration (name : string) (ds : list Declaration)
  : option Declaration :=
  match ds with
  | [] => None
  | d :: ds' =>
      if String.eqb name (decl_name d) then Some d
      else find_declaration name ds'
  end.

Fixpoint find_namespace (ns : string) (t : Table) : option Namespace :=
  match t with
  | [] => None
  | n :: t' =>
      if String.eqb ns (ns_name n) then Some n else find_namespace ns t'
  end.

(** [lookup t "NS" "X"] is the value read by the expression [AK::NS::X];
    [None] when the qualified name does not resolve. *)
Definition lookup (t : Table) (ns name : string) : option AkUniqueID :=
  match find_namespace ns t with
  | None => None
  | Some n =>
      match find_declaration name (ns_body n) with
      | None => None
      | Some d => Some (decl_value d)
      end
  end.

(** All bindings of a table, as (namespace, name, value), in source order. *)
Definition entries_of (n : Namespace) : list (string * string * AkUniqueID) :=
  map (fun d => (ns_name n, decl_name d, decl_value d)) (ns_body n).

Definition entries (t : Table) : list (string * string * AkUniqueID) :=
  flat_map entries_of t.

Definition values (t : Table) : list AkUniqueID :=
  map snd (entries t).

(** ** The spec's categories *)

(** The category enumeration in the spec's words, to be compared with the
    namespaces the header really has. *)
Inductive Category : Type :=
| Events
| GameParameters
| Busses
| AuxBusses
| AudioDevices.

Definition all_categories : list Category :=
  [ Events; GameParameters; Busses; AuxBusses; AudioDevices ].

(** The namespace label under which the header groups a category. *)
Definition category_label (c : Category) : string :=
  match c with
  | Events => "EVENTS"
  | GameParameters => "GAME_PARAMETERS"
  | Busses => "BUSSES"
  | AuxBusses => "AUX_BUSSES"
  | AudioDevices => "AUDIO_DEVICES"
  end.

Definition category_namespace (c : Category) : Namespace :=
  match c with
  | Events => AK.EVENTS
  | GameParameters => AK.GAME_PARAMETERS
  | Busses => AK.BUSSES
  | AuxBusses => AK.AUX_BUSSES
  | AudioDevices => AK.AUDIO_DEVICES
  end.

(** ** Accesses to the declared objects *)

(** What client code can attempt on a declared object: read it, or assign
    to it. *)
Inductive Access : Type :=
| Read (ns name : string)
| Assign (ns name : string) (v : Z).

Definition is_read (a : Access) : bool :=
  match a with
  | Read _ _ => true
  | Assign _ _ _ => false
  end.

(** Storing [v] into the object called [name]. *)
Fixpoint store_declaration (name : string) (v : Z) (ds : list Declaration)
  : list Declaration :=
  match ds with
  | [] => []
  | d :: ds' =>
      if String.eqb name (decl_name d)
      then {| decl_static := decl_static d; decl_const := decl_const d;
              decl_name := decl_name d; decl_init := v |} :: ds'
      else d :: store_declaration name v ds'
  end.

Fixpoint store (ns name : string) (v : Z) (t : Table) : Table :=
  match t with
  | [] => []
  | n :: t' =>
      if String.eqb ns (ns_name n)
      then {| ns_name := ns_name n;
              ns_body := store_declaration name v (ns_body n) |} :: t'
      else n :: store ns name v t'
  end.

(** One access.  [None] is an ill-formed access, which the compiler rejects:
    a name that does not resolve, or an assignment to a [const] object.  An
    accepted access yields the table afterwards and the value of the
    expression. *)
Definition exec (t : Table) (a : Access) : option (Table * AkUniqueID) :=
  match a with
  | Read ns name =>
      match lookup t ns name with
      | Some v => Some (t, v)
      | None => None
      end
  | Assign ns name v =>
      match find_namespace ns t with
      | None => None
      | Some n =>
          match find_declaration name (ns_body n) with
          | None => None
          | Some d =>
              if decl_const d then None
              else Some (store ns name v t, AkUniqueID_of_literal v)
          end
      end
  end.

(** A sequence of accesses, threading the table; the values are collected
    in order. *)
Fixpoint run (t : Table) (ops : list Access)
  : option (Table * list AkUniqueID) :=
  match ops with
  | [] => Some (t, [])
  | a :: ops' =>
      match exec t a with
      | None => None
      | Some (t1, v) =>
          match run t1 ops' with
          | None => None
          | Some (t2, vs) => Some (t2, v :: vs)
          end
      end
  end.

(** Every object of the table is [const]-qualified. *)
Definition all_const (t : Table) : Prop :=
  forall n d, In n t -> In d (ns_body n) -> decl_const d = true.

(** ** Well-formedness and decidable distinctness *)

(** Qualified names resolve without ambiguity: namespace labels are distinct
    and, inside one namespace, so are the declared names. *)
Definition well_formed (t : Table) : Prop :=
  NoDup (map ns_name t) /\
  forall n, In n t -> NoDup (map decl_name (ns_body n)).

Fixpoint memb {A : Type} (eqb : A -> A -> bool) (x : A) (l : list A) : bool :=
  match l with
  | [] => false
  | y :: l' => eqb x y || memb eqb x l'
  end.

Fixpoint distinctb {A : Type} (eqb : A -> A -> bool) (l : list A) : bool :=
  match l with
  | [] => true
  | x :: l' => negb (memb eqb x l') && distinctb eqb l'
  end.

(** ** The include guard *)

(** The macro tested by [#ifndef __WWISE_IDS_H__] and set by the [#define]
    on the next line. *)
Definition guard : string := "__WWISE_IDS_H__".

(** A translation unit while it is preprocessed: the macros defined so far
    and the namespaces of [AK] declared so far, in order. *)
Record Unit : Type := mkUnit {
  macros : list string;
  declared : Table
}.

Definition defined (m : string) (u : Unit) : bool :=
  memb String.eqb m (macros u).

Definition define (m : string) (u : Unit) : Unit :=
  {| macros := m :: macros u; declared := declared u |}.

Definition declare (t : Table) (u : Unit) : Unit :=
  {| macros := macros u; declared := (declared u ++ t)%list |}.

(** [#include "Wwise_IDs.h"].  When the guard is defined everything up to
    the closing [#endif] is skipped.  Otherwise the guard is defined, then
    [<AK/SoundEngine/Common/AkTypes.h>] is included (the SDK header is not
    part of the sources, its effect is the parameter [AkTypes_h]), then the
    namespaces are declared. *)
Definition include_Wwise_IDs (AkTypes_h : Unit -> Unit) (u : Unit) : Unit :=
  if defined guard u then u
  else declare AK.table (AkTypes_h (define guard u)).

(** The same text without its guard lines, for comparison. *)
Definition include_unguarded (AkTypes_h : Unit -> Unit) (u : Unit) : Unit :=
  declare AK.table (AkTypes_h u).

(** ** Sanity checks of the embedding *)

Example lookup_roll :
  lookup AK.table "EVENTS" "PLAY_SFX_BUNNYROLL_NL" = Some 4212669292.
Proof. reflexivity. Qed.

Example lookup_wrong_namespace :
  lookup AK.table "BUSSES" "ROOM" = None.
Proof. reflexivity. Qed.

Example wrap_truncates : AkUniqueID_of_literal 4294967297 = 1.
Proof. reflexivity. Qed.

(** Without [const] the assignment is accepted and changes the object: the
    rejection below is due to the qualifier, not to the model. *)
Example assign_mutable_object :
  let t := [ {| ns_name := "BUSSES";
                ns_body := [ {| decl_static := true; decl_const := false;
                                decl_name := "MAIN_AUDIO_BUS";
                                decl_init := 2246998526 |} ] |} ] in
  match exec t (Assign "BUSSES" "MAIN_AUDIO_BUS" 7) with
  | Some (t', _) => lookup t' "BUSSES" "MAIN_AUDIO_BUS" = Some 7
  | None => False
  end.
Proof. reflexivity. Qed.

(** ** Distinctness by computation *)

Section Distinct.

Variable A : Type.
Variable eqb : A -> A -> bool.
Hypothesis eqb_spec : forall x y, reflect (x = y) (eqb x y).

Lemma memb_In (x : A) (l : list A) : memb eqb x l = true <-> In x l.
Proof.
  induction l as [|y l IH]; simpl.
  - split; [discriminate | tauto].
  - rewrite orb_true_iff, IH.
    destruct (eqb_spec x y) as [->|Hne]; split; auto.
    + intros [Hf|Hin]; [discriminate | auto].
    + intros [Heq|Hin]; [symmetry in Heq; contradiction | auto].
Qed.

Lemma distinctb_NoDup (l : list A) : distinctb eqb l = true <-> NoDup l.
Proof.
  induction l as [|x l IH]; simpl.
  - split; [constructor | reflexivity].
  - rewrite andb_true_iff, negb_true_iff, IH. split.
    + intros [Hm Hd]. constructor; [|exact Hd].
      intros Hin. apply memb_In in Hin. congruence.
    + intros Hnd. inversion Hnd as [|? ? Hnin Hd]; subst. split; [|exact Hd].
      destruct (memb eqb x l) eqn:E; [|reflexivity].
      apply memb_In in E. contradiction.
Qed.

End Distinct.

Lemma distinct_strings (l : list string) :
  distinctb String.eqb l = true -> NoDup l.
Proof. apply distinctb_NoDup, String.eqb_spec. Qed.

Lemma distinct_Zs (l : list Z) : distinctb Z.eqb l = true -> NoDup l.
Proof. apply distinctb_NoDup, Z.eqb_spec. Qed.

(** ** Name lookup against membership *)

Lemma find_declaration_Some name ds d :
  find_declaration name ds = Some d -> In d ds /\ decl_name d = name.
Proof.
  induction ds as [|d0 ds IH]; simpl; [discriminate|].
  destruct (String.eqb_spec name (decl_name d0)) as [->|Hne].
  - intros [= ->]. auto.
  - intros H. destruct (IH H). auto.
Qed.

Lemma find_namespace_Some ns t n :
  find_namespace ns t = Some n -> In n t /\ ns_name n = ns.
Proof.
  induction t as [|n0 t IH]; simpl; [discriminate|].
  destruct (String.eqb_spec ns (ns_name n0)) as [->|Hne].
  - intros [= ->]. auto.
  - intros H. destruct (IH H). auto.
Qed.

Lemma In_find_declaration ds d :
  NoDup (map decl_name ds) -> In d ds ->
  find_declaration (decl_name d) ds = Some d.
Proof.
  induction ds as [|d0 ds IH]; simpl; [tauto|].
  intros Hnd [->|Hin].
  - now rewrite String.eqb_refl.
  - inversion Hnd as [|? ? Hnin Hnd']; subst.
    destruct (String.eqb_spec (decl_name d) (decl_name d0)) as [Heq|Hne].
    + exfalso. apply Hnin. rewrite <- Heq. now apply in_map.
    + auto.
Qed.

Lemma In_find_namespace t n :
  NoDup (map ns_name t) -> In n t -> find_namespace (ns_name n) t = Some n.
Proof.
  induction t as [|n0 t IH]; simpl; [tauto|].
  intros Hnd [->|Hin].
  - now rewrite String.eqb_refl.
  - inversion Hnd as [|? ? Hnin Hnd']; subst.
    destruct (String.eqb_spec (ns_name n) (ns_name n0)) as [Heq|Hne].
    + exfalso. apply Hnin. rewrite <- Heq. now apply in_map.
    + auto.
Qed.

Lemma In_entries t c x v :
  In (c, x, v) (entries t) <->
  exists n d, In n t /\ In d (ns_body n) /\
              ns_name n = c /\ decl_name d = x /\ decl_value d = v.
Proof.
  unfold entries, entries_of. rewrite in_flat_map. split.
  - intros (n & Hn & Hin). apply in_map_iff in Hin.
    destruct Hin as (d & [= <- <- <-] & Hd). eauto 8.
  - intros (n & d & Hn & Hd & <- & <- & <-).
    exists n. split; [exact Hn|]. apply in_map_iff. eauto.
Qed.

(** On a well-formed table the listed bindings are exactly what qualified
    lookup resolves. *)
Lemma lookup_entries t c x v :
  well_formed t ->
  (lookup t c x = Some v <-> In (c, x, v) (entries t)).
Proof.
  intros [Hns Hds]. rewrite In_entries. unfold lookup. split.
  - destruct (find_namespace c t) as [n|] eqn:En; [|discriminate].
    destruct (find_declaration x (ns_body n)) as [d|] eqn:Ed; [|discriminate].
    intros [= <-].
    apply find_namespace_Some in En. apply find_declaration_Some in Ed.
    exists n, d. tauto.
  - intros (n & d & Hn & Hd & <- & <- & <-).
    rewrite (In_find_namespace t n Hns Hn).
    now rewrite (In_find_declaration _ d (Hds n Hn) Hd).
Qed.

(** ** Accesses on a table of [const] objects *)

Lemma exec_const_table t a t' v :
  all_const t -> exec t a = Some (t', v) ->
  t' = t /\ exists ns name, a = Read ns name /\ lookup t ns name = Some v.
Proof.
  intros Hc. destruct a as [ns name | ns name z]; simpl.
  - destruct (lookup t ns name) as [v0|] eqn:E; [|discriminate].
    intros [= <- <-]. eauto.
  - destruct (find_namespace ns t) as [n|] eqn:En; [|discriminate].
    destruct (find_declaration name (ns_body n)) as [d|] eqn:Ed;
      [|discriminate].
    apply find_namespace_Some in En. apply find_declaration_Some in Ed.
    rewrite (Hc n d (proj1 En) (proj1 Ed)). discriminate.
Qed.

Lemma assign_const_table t ns name z :
  all_const t -> exec t (Assign ns name z) = None.
Proof.
  intros Hc. destruct (exec t (Assign ns name z)) as [[t' v]|] eqn:E;
    [|reflexivity].
  destruct (exec_const_table _ _ _ _ Hc E) as (_ & ? & ? & [=] & _).
Qed.

Lemma run_const_table t :
  all_const t ->
  forall ops t' vs,
    run t ops = Some (t', vs) ->
    t' = t /\ forallb is_read ops = true /\
    Forall2 (fun a v => exec t a = Some (t, v)) ops vs.
Proof.
  intros Hc. induction ops as [|a ops IH]; simpl; intros t' vs.
  - intros [= <- <-]. auto.
  - destruct (exec t a) as [[t1 v]|] eqn:Ea; [|discriminate].
    destruct (exec_const_table _ _ _ _ Hc Ea) as (-> & ns & name & -> & Hl).
    destruct (run t ops) as [[t2 vs']|] eqn:Er; [|discriminate].
    intros [= <- <-]. destruct (IH _ _ eq_refl) as (-> & Hr & Hf).
    simpl. auto.
Qed.

(** ** Facts about the header's table *)

Lemma table_all_const : all_const AK.table.
Proof.
  intros n d Hn Hd. simpl in Hn.
  repeat (destruct Hn as [<-|Hn]; [simpl in Hd; intuition (subst; reflexivity)|]).
  contradiction.
Qed.

Lemma table_well_formed : well_formed AK.table.
Proof.
  split.
  - apply distinct_strings. reflexivity.
  - intros n Hn. simpl in Hn.
    repeat (destruct Hn as [<-|Hn]; [apply distinct_strings; reflexivity|]).
    contradiction.
Qed.

(** No literal of the header is changed by the conversion to the 32-bit
    type: each one already lies in the range of [AkUniqueID]. *)
Lemma literals_not_truncated n d :
  In n AK.table -> In d (ns_body n) ->
  0 <= decl_init d <= AkUniqueID_max /\ decl_value d = decl_init d.
Proof.
  intros Hn Hd. simpl in Hn.
  repeat (destruct Hn as [<-|Hn];
          [simpl in Hd;
           repeat (destruct Hd as [<-|Hd];
                   [split; [unfold AkUniqueID_max; simpl; lia | reflexivity]|]);
           contradiction|]).
  contradiction.
Qed.

(** Whatever the width of the integer type behind [AkUniqueID], the values
    stored stay within 32 bits. *)
Lemma values_32bit_any_width w n d :
  0 <= w -> In n AK.table -> In d (ns_body n) ->
  0 <= wrap w (decl_init d) <= 2 ^ 32 - 1.
Proof.
  intros Hw Hn Hd. destruct (literals_not_truncated n d Hn Hd) as [Hr _].
  unfold AkUniqueID_max, AkUniqueID_bits in Hr. unfold wrap.
  assert (0 < 2 ^ w) by (apply Z.pow_pos_nonneg; lia).
  pose proof (Z.mod_pos_bound (decl_init d) (2 ^ w) ltac:(lia)).
  pose proof (Z.mod_le (decl_init d) (2 ^ w) ltac:(lia) ltac:(lia)).
  lia.
Qed.

(** ** The claims *)

(** C1: the table binds the five constants sampled by the spec to exactly
    the stated values: [EVENTS.PLAY_SFX_BUNNYROLL_NL] is 4212669292,
    [GAME_PARAMETERS.VELOCITY] is 3519441192, [BUSSES.MAIN_AUDIO_BUS] is
    2246998526, [AUX_BUSSES.ROOM] is 2077253480 and
    [AUDIO_DEVICES.NO_OUTPUT] is 2317455096. *)
Theorem sampled_constants :
  lookup AK.table "EVENTS" "PLAY_SFX_BUNNYROLL_NL" = Some 4212669292 /\
  lookup AK.table "GAME_PARAMETERS" "VELOCITY" = Some 3519441192 /\
  lookup AK.table "BUSSES" "MAIN_AUDIO_BUS" = Some 2246998526 /\
  lookup AK.table "AUX_BUSSES" "ROOM" = Some 2077253480 /\
  lookup AK.table "AUDIO_DEVICES" "NO_OUTPUT" = Some 2317455096.
Proof. repeat split. Qed.

(** C2: every named constant of the table, in whichever of the five
    namespaces, has a value in the unsigned 32-bit range, from 0 to
    2^32 - 1 inclusive. *)
Theorem values_are_uint32 (c x : string) (v : AkUniqueID) :
  In (c, x, v) (entries AK.table) -> 0 <= v <= 2 ^ 32 - 1.
Proof.
  intros Hin. apply In_entries in Hin.
  destruct Hin as (n & d & Hn & Hd & _ & _ & <-).
  destruct (literals_not_truncated n d Hn Hd) as [Hr ->]. exact Hr.
Qed.

Lemma values_are_uint32_witness :
  In ("AUDIO_DEVICES", "SYSTEM", 3859886410) (entries AK.table) /\
  0 <= 3859886410 <= 2 ^ 32 - 1.
Proof.
  split.
  - simpl. auto 20.
  - apply (values_are_uint32 "AUDIO_DEVICES" "SYSTEM"). simpl. auto 20.
Defined.

(** C3: inside each single namespace of the table (events, game parameters,
    busses, auxiliary busses, audio devices) the declared names are pairwise
    distinct. *)
Theorem names_distinct_within_category (n : Namespace) :
  In n AK.table -> NoDup (map decl_name (ns_body n)).
Proof. intros Hn. exact (proj2 table_well_formed n Hn). Qed.

Lemma names_distinct_within_category_witness :
  In AK.EVENTS AK.table /\ NoDup (map decl_name (ns_body AK.EVENTS)).
Proof.
  split.
  - simpl. auto.
  - apply (names_distinct_within_category AK.EVENTS). simpl. auto.
Defined.

(** C4: the table consists of exactly the five categories of the spec's
    enumeration, Events, GameParameters, Busses, AuxBusses and AudioDevices,
    each once, and of no other namespace. *)
Theorem categories_exactly_five :
  AK.table = map category_namespace all_categories /\
  map ns_name AK.table = map category_label all_categories /\
  map ns_name AK.table =
    [ "EVENTS"; "GAME_PARAMETERS"; "BUSSES"; "AUX_BUSSES"; "AUDIO_DEVICES" ] /\
  List.length AK.table = 5%nat /\
  NoDup (map ns_name AK.table) /\
  (forall c : Category, In c all_categories).
Proof.
  repeat split.
  - apply table_well_formed.
  - intros []; simpl; auto 10.
Qed.

(** C5: no namespace of the table is empty, each of the five holds at least
    one named constant, and in particular the events namespace does. *)
Theorem no_category_empty :
  (forall n, In n AK.table -> (1 <= List.length (ns_body n))%nat) /\
  find_namespace "EVENTS" AK.table = Some AK.EVENTS /\
  (1 <= List.length (ns_body AK.EVENTS))%nat.
Proof.
  split; [|split; [reflexivity | simpl; lia]].
  intros n Hn. simpl in Hn.
  repeat (destruct Hn as [<-|Hn]; [simpl; lia|]).
  contradiction.
Qed.

Lemma no_category_empty_witness :
  In AK.AUX_BUSSES AK.table /\ (1 <= List.length (ns_body AK.AUX_BUSSES))%nat.
Proof.
  split.
  - simpl. auto.
  - apply (proj1 no_category_empty AK.AUX_BUSSES). simpl. auto.
Defined.

(** C6: the table is immutable.  No assignment to one of its objects is
    accepted, and any accepted sequence of accesses consists of reads only,
    leaves the table exactly as it was, and returns at every position the
    value the constant has in the initial table. *)
Theorem table_immutable (ops : list Access) (t' : Table)
    (vs : list AkUniqueID) :
  run AK.table ops = Some (t', vs) ->
  t' = AK.table /\
  forallb is_read ops = true /\
  Forall2 (fun a v => exists ns name,
             a = Read ns name /\ lookup AK.table ns name = Some v) ops vs /\
  (forall ns name z, exec AK.table (Assign ns name z) = None).
Proof.
  intros Hrun.
  destruct (run_const_table _ table_all_const _ _ _ Hrun) as (-> & Hr & Hf).
  repeat split; auto.
  - clear Hrun Hr. induction Hf as [|a v ops vs Ha _ IH]; constructor; auto.
    destruct (exec_const_table _ _ _ _ table_all_const Ha) as (_ & He).
    exact He.
  - intros. apply assign_const_table, table_all_const.
Qed.

Lemma table_immutable_witness :
  run AK.table [ Read "EVENTS" "PLAY_SFX_BUNNYMOVE_NL";
                 Read "AUX_BUSSES" "ROOM";
                 Read "EVENTS" "PLAY_SFX_BUNNYMOVE_NL" ]
  = Some (AK.table, [ 1400485278; 2077253480; 1400485278 ]) /\
  forallb is_read [ Read "EVENTS" "PLAY_SFX_BUNNYMOVE_NL";
                    Read "AUX_BUSSES" "ROOM";
                    Read "EVENTS" "PLAY_SFX_BUNNYMOVE_NL" ] = true.
Proof.
  split.
  - reflexivity.
  - apply (table_immutable
             [ Read "EVENTS" "PLAY_SFX_BUNNYMOVE_NL";
               Read "AUX_BUSSES" "ROOM";
               Read "EVENTS" "PLAY_SFX_BUNNYMOVE_NL" ]
             AK.table [ 1400485278; 2077253480; 1400485278 ]).
    reflexivity.
Defined.

(** C8: the table has exactly 13 entries, 8 events, 1 game parameter, 1 bus,
    1 auxiliary bus and 2 audio devices, with exactly the bindings listed
    here (the spec's five samples and the eight others). *)
Theorem table_contents :
  entries AK.table =
    [ ("EVENTS", "PLAY_AMB_ROOM2_LP", 2291298689);
      ("EVENTS", "PLAY_AMB_ROOM_LP", 3112684807);
      ("EVENTS", "PLAY_MUS_4_4_100BPM_THEME_NL", 513704729);
      ("EVENTS", "PLAY_SFX_BUNNYABSORB_NL", 1567933058);
      ("EVENTS", "PLAY_SFX_BUNNYIMPACT_NL", 4038925685);
      ("EVENTS", "PLAY_SFX_BUNNYMOVE_NL", 1400485278);
      ("EVENTS", "PLAY_SFX_BUNNYROLL_NL", 4212669292);
      ("EVENTS", "PLAY_SFX_WOODBLOCK_IMPACT_WOOD", 841695155);
      ("GAME_PARAMETERS", "VELOCITY", 3519441192);
      ("BUSSES", "MAIN_AUDIO_BUS", 2246998526);
      ("AUX_BUSSES", "ROOM", 2077253480);
      ("AUDIO_DEVICES", "NO_OUTPUT", 2317455096);
      ("AUDIO_DEVICES", "SYSTEM", 3859886410) ] /\
  List.length (entries AK.table) = 13%nat /\
  map (fun n => (ns_name n, List.length (ns_body n))) AK.table =
    [ ("EVENTS", 8%nat); ("GAME_PARAMETERS", 1%nat); ("BUSSES", 1%nat);
      ("AUX_BUSSES", 1%nat); ("AUDIO_DEVICES", 2%nat) ] /\
  lookup AK.table "EVENTS" "PLAY_AMB_ROOM2_LP" = Some 2291298689 /\
  lookup AK.table "EVENTS" "PLAY_AMB_ROOM_LP" = Some 3112684807 /\
  lookup AK.table "EVENTS" "PLAY_MUS_4_4_100BPM_THEME_NL" = Some 513704729 /\
  lookup AK.table "EVENTS" "PLAY_SFX_BUNNYABSORB_NL" = Some 1567933058 /\
  lookup AK.table "EVENTS" "PLAY_SFX_BUNNYIMPACT_NL" = Some 4038925685 /\
  lookup AK.table "EVENTS" "PLAY_SFX_BUNNYMOVE_NL" = Some 1400485278 /\
  lookup AK.table "EVENTS" "PLAY_SFX_WOODBLOCK_IMPACT_WOOD" = Some 841695155 /\
  lookup AK.table "AUDIO_DEVICES" "SYSTEM" = Some 3859886410.
Proof. repeat split. Qed.

(** C9: the 13 values of the table are pairwise distinct over the whole
    table, across namespaces too. *)
Theorem values_pairwise_distinct :
  List.length (values AK.table) = 13%nat /\ NoDup (values AK.table).
Proof. split; [reflexivity | apply distinct_Zs; reflexivity]. Qed.

(** C10: every constant of the table is strictly positive, so none equals
    the zero an engine could use as its invalid-ID marker. *)
Theorem values_positive (c x : string) (v : AkUniqueID) :
  In (c, x, v) (entries AK.table) -> 0 < v /\ v <> 0.
Proof.
  intros Hin. simpl in Hin.
  repeat (destruct Hin as [[= <- <- <-]|Hin]; [split; [reflexivity | discriminate]|]).
  contradiction.
Qed.

Lemma values_positive_witness :
  In ("EVENTS", "PLAY_MUS_4_4_100BPM_THEME_NL", 513704729) (entries AK.table) /\
  0 < 513704729.
Proof.
  split.
  - simpl. auto 20.
  - apply (values_positive "EVENTS" "PLAY_MUS_4_4_100BPM_THEME_NL").
    simpl. auto 20.
Defined.


(** ** Repeated inclusion *)

Example unguarded_twice_redeclares :
  List.length (declared (include_unguarded (fun u => u)
                 (include_unguarded (fun u => u) (mkUnit [] [])))) = 10%nat.
Proof. reflexivity. Qed.

Section Guard.

Variable AkTypes_h : Unit -> Unit.

(** The SDK header does not [#undef] this file's guard. *)
Hypothesis AkTypes_keeps_guard :
  forall u, defined guard u = true -> defined guard (AkTypes_h u) = true.

Lemma defined_define m u : defined m (define m u) = true.
Proof. unfold defined, define. simpl. now rewrite String.eqb_refl. Qed.

Lemma defined_declare m t u : defined m (declare t u) = defined m u.
Proof. reflexivity. Qed.

Lemma include_defines_guard u :
  defined guard (include_Wwise_IDs AkTypes_h u) = true.
Proof.
  unfold include_Wwise_IDs. destruct (defined guard u) eqn:E; [exact E|].
  rewrite defined_declare. apply AkTypes_keeps_guard, defined_define.
Qed.

Lemma include_again u :
  include_Wwise_IDs AkTypes_h (include_Wwise_IDs AkTypes_h u)
  = include_Wwise_IDs AkTypes_h u.
Proof.
  unfold include_Wwise_IDs at 1. now rewrite include_defines_guard.
Qed.

Lemma include_iter (n : nat) u :
  Nat.iter (S n) (include_Wwise_IDs AkTypes_h) u
  = include_Wwise_IDs AkTypes_h u.
Proof.
  induction n as [|n IH].
  - reflexivity.
  - change (Nat.iter (S (S n)) (include_Wwise_IDs AkTypes_h) u)
      with (include_Wwise_IDs AkTypes_h
              (Nat.iter (S n) (include_Wwise_IDs AkTypes_h) u)).
    rewrite IH. apply include_again.
Qed.

(** X1: any positive number of inclusions of the header is the same as one
    inclusion: from the second on, neither the macros nor the declarations
    change, and the SDK header is not entered again. *)
Theorem include_repeated (n : nat) u :
  Nat.iter (S n) (include_Wwise_IDs AkTypes_h) u
  = include_Wwise_IDs AkTypes_h u.
Proof. apply include_iter. Qed.

(** The SDK header declares nothing of this file's namespaces. *)
Hypothesis AkTypes_declares_nothing :
  forall u, declared (AkTypes_h u) = declared u.


End Guard.

Lemma include_repeated_witness :
  (forall u, defined guard u = true -> defined guard ((fun v => v) u) = true) /\
  Nat.iter 3 (include_Wwise_IDs (fun v => v)) (mkUnit [] [])
  = include_Wwise_IDs (fun v => v) (mkUnit [] []).
Proof.
  split.
  - intros u H. exact H.
  - apply (include_repeated (fun v => v)). intros u H. exact H.
Defined.


(** ** What qualified names resolve to *)

Lemma NoDup_map_injective_on {A B : Type} (f : A -> B) (l : list A) a b :
  NoDup (map f l) -> In a l -> In b l -> f a = f b -> a = b.
Proof.
  induction l as [|x l IH]; simpl; [tauto|].
  intros Hnd Ha Hb Hf. inversion Hnd as [|? ? Hnin Hnd']; subst.
  destruct Ha as [->|Ha], Hb as [->|Hb]; auto.
  - exfalso. apply Hnin. rewrite Hf. now apply in_map.
  - exfalso. apply Hnin. rewrite <- Hf. now apply in_map.
Qed.

Lemma find_namespace_None ns t :
  ~ In ns (map ns_name t) -> find_namespace ns t = None.
Proof.
  induction t as [|n t IH]; simpl; [reflexivity|].
  intros Hnin. destruct (String.eqb_spec ns (ns_name n)) as [->|Hne].
  - exfalso. apply Hnin. now left.
  - apply IH. intros Hin. apply Hnin. now right.
Qed.

Lemma find_declaration_None name ds :
  ~ In name (map decl_name ds) -> find_declaration name ds = None.
Proof.
  induction ds as [|d ds IH]; simpl; [reflexivity|].
  intros Hnin. destruct (String.eqb_spec name (decl_name d)) as [->|Hne].
  - exfalso. apply Hnin. now left.
  - apply IH. intros Hin. apply Hnin. now right.
Qed.

Lemma table_names_distinct :
  NoDup (map (fun e => snd (fst e)) (entries AK.table)).
Proof. apply distinct_strings. reflexivity. Qed.

Lemma table_values_distinct : NoDup (map snd (entries AK.table)).
Proof. apply distinct_Zs. reflexivity. Qed.

(** X3: a qualified name resolves in the table exactly when it is one of
    the listed bindings, and then to the listed value: no declaration is
    hidden by another. *)
Theorem lookup_resolves_listed (c x : string) (v : AkUniqueID) :
  lookup AK.table c x = Some v <-> In (c, x, v) (entries AK.table).
Proof. apply lookup_entries, table_well_formed. Qed.

Lemma lookup_resolves_listed_witness :
  In ("BUSSES", "MAIN_AUDIO_BUS", 2246998526) (entries AK.table) /\
  lookup AK.table "BUSSES" "MAIN_AUDIO_BUS" = Some 2246998526.
Proof.
  split.
  - simpl. auto 20.
  - apply (proj2 (lookup_resolves_listed "BUSSES" "MAIN_AUDIO_BUS" 2246998526)).
    simpl. auto 20.
Defined.

(** X4: an identifier value determines the constant: two qualified names
    that resolve to the same value are the same name in the same
    namespace. *)
Theorem lookup_injective (c1 x1 c2 x2 : string) (v : AkUniqueID) :
  lookup AK.table c1 x1 = Some v ->
  lookup AK.table c2 x2 = Some v ->
  c1 = c2 /\ x1 = x2.
Proof.
  intros H1 H2.
  apply (lookup_entries _ _ _ _ table_well_formed) in H1, H2.
  assert (E : (c1, x1, v) = (c2, x2, v))
    by (apply (NoDup_map_injective_on snd (entries AK.table));
        auto using table_values_distinct).
  injection E. auto.
Qed.

Lemma lookup_injective_witness :
  lookup AK.table "AUX_BUSSES" "ROOM" = Some 2077253480 /\
  ("AUX_BUSSES" = "AUX_BUSSES" /\ "ROOM" = "ROOM").
Proof.
  split.
  - reflexivity.
  - apply (lookup_injective "AUX_BUSSES" "ROOM" "AUX_BUSSES" "ROOM" 2077253480);
      reflexivity.
Defined.

(** X5: no name is declared in two namespaces of the table: a name that
    resolves in two namespaces resolves in one and the same. *)
Theorem name_determines_namespace (c1 c2 x : string) (v1 v2 : AkUniqueID) :
  lookup AK.table c1 x = Some v1 ->
  lookup AK.table c2 x = Some v2 ->
  c1 = c2 /\ v1 = v2.
Proof.
  intros H1 H2.
  apply (lookup_entries _ _ _ _ table_well_formed) in H1, H2.
  assert (E : (c1, x, v1) = (c2, x, v2))
    by (apply (NoDup_map_injective_on (fun e => snd (fst e))
                 (entries AK.table));
        auto using table_names_distinct).
  injection E. auto.
Qed.

Lemma name_determines_namespace_witness :
  lookup AK.table "GAME_PARAMETERS" "VELOCITY" = Some 3519441192 /\
  ("GAME_PARAMETERS" = "GAME_PARAMETERS" /\ 3519441192 = 3519441192).
Proof.
  split.
  - reflexivity.
  - apply (name_determines_namespace
             "GAME_PARAMETERS" "GAME_PARAMETERS" "VELOCITY");
      reflexivity.
Defined.

(** X6: a qualified name whose namespace is none of the five labels does
    not resolve, and neither a read of it nor an assignment to it is
    accepted. *)
Theorem unknown_namespace_rejected (c x : string) (z : Z) :
  ~ In c (map category_label all_categories) ->
  lookup AK.table c x = None /\
  exec AK.table (Read c x) = None /\
  exec AK.table (Assign c x z) = None.
Proof.
  intros Hnin.
  assert (Hf : find_namespace c AK.table = None)
    by (apply find_namespace_None; exact Hnin).
  unfold exec, lookup. rewrite Hf. auto.
Qed.

Lemma unknown_namespace_rejected_witness :
  lookup AK.table "SWITCHES" "ROOM" = None /\
  exec AK.table (Read "SWITCHES" "ROOM") = None.
Proof.
  split.
  - reflexivity.
  - apply (unknown_namespace_rejected "SWITCHES" "ROOM" 0).
    simpl. intuition discriminate.
Defined.
